(** * CoinGecko example algorithms

    A shallow embedding of the two strategy scripts of the repository,
    [CoinGeckoAlgorithm.py] and
    [CoinGeckoUniverseSelectionModelAlgorithm.py], and the properties their
    description states about them.

    The scripts are written against a trading platform.  Every call a
    script makes into the platform is recorded as a [Call]; a method of a
    script is a function from the algorithm object (and its arguments) to
    the updated object and the calls it issued, in program order. *)

From stdpp Require Import gmap strings list sorting.
From Stdlib Require Import ZArith Lia.

Local Open Scope Z_scope.

(** ** Data delivered by the feed *)

(** The data type tag handed to [AddData] and [slice.Get]. *)
Inductive DataType := CoinGecko_t.

(** A CoinGecko data point, with the attributes the scripts read.
    [MarketCap] and [Price] are decimal quantities; the scripts only print
    them and compare them, so they are kept as the integer number of
    their smallest unit. *)
Record CoinGecko := {
  Coin : string;
  MarketCap : Z;
  Price : Z
}.

#[global] Instance CoinGecko_eq_dec : EqDecision CoinGecko.
Proof. solve_decision. Defined.

(** ** What the scripts take from the platform

    The platform's symbols, enumerations and the [CreateSymbol] method of a
    data point are not part of the scripts; the scripts are embedded over
    any platform that provides them. *)
Class Host := {
  Symbol : Type;
  Symbol_eq_dec :: EqDecision Symbol;
  Symbol_countable :: Countable Symbol;
  (** [self.AddCrypto(ticker).Symbol] *)
  AddCrypto_Symbol : string → Symbol;
  (** [self.AddData(type, ticker).Symbol] *)
  AddData_Symbol : DataType → string → Symbol;
  OrderStatus : Type;
  OrderStatus_eq_dec :: EqDecision OrderStatus;
  (** [OrderStatus.Filled] *)
  OrderStatus_Filled : OrderStatus;
  Resolution : Type;
  (** [Resolution.Daily] *)
  Resolution_Daily : Resolution;
  Market : Type;
  (** [Market.GDAX] *)
  Market_GDAX : Market;
  (** [x.CreateSymbol(market, quoteCurrency)] *)
  CreateSymbol : CoinGecko → Market → string → Symbol;
  (** what [OnSecuritiesChanged] receives *)
  SecurityChanges : Type
}.

(** A platform to evaluate the scripts on: symbols are their tickers. *)
Definition ticker_host : Host := {|
  Symbol := string;
  AddCrypto_Symbol := λ ticker, ticker;
  AddData_Symbol := λ _ ticker, ticker +:+ ".CoinGecko";
  OrderStatus := nat;
  OrderStatus_Filled := 3%nat;
  Resolution := unit;
  Resolution_Daily := tt;
  Market := string;
  Market_GDAX := "gdax";
  CreateSymbol := λ x _ quote, Coin x +:+ quote;
  SecurityChanges := list string
|}.

Section Platform.
Context `{Host}.

(** The parts of an f-string: literal text and interpolated values. *)
Inductive Piece :=
  | Lit (s : string)
  | Str (s : string)
  | Num (z : Z)
  | Sym (s : Symbol)
  | Changes (c : SecurityChanges).

Definition Message := list Piece.

(** The method handed to [CoinGeckoUniverseSelectionModel]. *)
Inductive Selector := self_UniverseSelection.

Inductive Call :=
  | SetStartDate (year month day : Z)
  | SetEndDate (year month day : Z)
  | SetCash (cash : Z)
  | AddCrypto (ticker : string)
  | AddData (type : DataType) (ticker : string)
  | SetUniverseSettingsResolution (r : Resolution)
  | SetUniverseSelection_CoinGeckoUniverseSelectionModel (selector : Selector)
  | SetHoldings (symbol : Symbol) (percentage : Z)
  | Debug (message : Message)
  | Log (message : Message).

Definition is_SetStartDate (c : Call) : bool :=
  match c with SetStartDate _ _ _ => true | _ => false end.
Definition is_SetEndDate (c : Call) : bool :=
  match c with SetEndDate _ _ _ => true | _ => false end.
Definition is_SetCash (c : Call) : bool :=
  match c with SetCash _ => true | _ => false end.
Definition is_Debug (c : Call) : bool :=
  match c with Debug _ => true | _ => false end.

(** The calls that subscribe the algorithm to a data feed. *)
Definition is_subscription (c : Call) : bool :=
  match c with
  | AddCrypto _ | AddData _ _
  | SetUniverseSelection_CoinGeckoUniverseSelectionModel _ => true
  | _ => false
  end.

(** [slice.Get(CoinGecko)]: the CoinGecko points of a time slice, by
    symbol. *)
Record Slice := {
  Get_CoinGecko : gmap Symbol CoinGecko
}.

(** Truth value of a dictionary in a condition: non-empty. *)
Definition truthy (data : gmap Symbol CoinGecko) : bool :=
  negb (bool_decide (data = ∅)).

End Platform.

(** ** The rolling window *)

(** Modelled from the spec: the platform's [RollingWindow], which the
    scripts use and do not define: "a fixed-capacity buffer retaining the N
    most recent observations of a data series".  [items] holds the retained
    observations, newest first, so that [w[0]] is the newest one; the
    window is ready once it holds as many observations as its capacity. *)
Module RollingWindow.
Section Window.
Context {T : Type}.

Record t := {
  Size : nat;
  items : list T
}.

(** [RollingWindow[T](size)] *)
Definition new (size : nat) : t := {| Size := size; items := [] |}.

(** [w.Add(x)] *)
Definition Add (x : T) (w : t) : t :=
  {| Size := Size w; items := take (Size w) (x :: items w) |}.

(** [w.Count] *)
Definition Count (w : t) : nat := length (items w).

(** [w.IsReady] *)
Definition IsReady (w : t) : bool := bool_decide (Size w ≤ Count w)%nat.

(** [w[i]]; [None] where the platform raises. *)
Definition get (w : t) (i : nat) : option T := items w !! i.

(** The window after adding [xs] one by one, oldest first. *)
Definition add_all (xs : list T) (w : t) : t := foldl (λ w x, Add x w) w xs.

End Window.
Arguments t : clear implicits.
End RollingWindow.

(** ** CoinGeckoAlgorithm.py *)
Module CoinGeckoAlgorithm.
Section Algorithm.
Context `{Host}.

(** The attributes of [self]. *)
Record t := {
  crypto_symbol : Symbol;
  custom_data_symbol : Symbol;
  window : RollingWindow.t CoinGecko
}.

Definition set_window (w : RollingWindow.t CoinGecko) (self : t) : t :=
  {| crypto_symbol := crypto_symbol self;
     custom_data_symbol := custom_data_symbol self;
     window := w |}.

Definition Initialize : t * list Call :=
  ({| crypto_symbol := AddCrypto_Symbol "BTCUSD";
      custom_data_symbol := AddData_Symbol CoinGecko_t "BTC";
      window := RollingWindow.new 2 |},
   [ SetStartDate 2018 4 4;
     SetEndDate 2018 4 6;
     AddCrypto "BTCUSD";
     AddData CoinGecko_t "BTC" ]).

(** [OnData] returns the updated object and the calls it made, or [None]
    where the script raises. *)
Definition OnData (slice : Slice) (self : t) : option (t * list Call) :=
  let data := Get_CoinGecko slice in
  if truthy data && bool_decide (is_Some (data !! custom_data_symbol self)) then
    x ← data !! custom_data_symbol self;
    let self := set_window (RollingWindow.Add x (window self)) self in
    if negb (RollingWindow.IsReady (window self)) then
      Some (self, [])
    else
      w0 ← RollingWindow.get (window self) 0;
      w1 ← RollingWindow.get (window self) 1;
      if MarketCap w0 >? MarketCap w1 then
        Some (self, [SetHoldings (crypto_symbol self) 1])
      else
        Some (self, [SetHoldings (crypto_symbol self) (-1)])
  else
    Some (self, []).

(** An order event, with the attributes [OnOrderEvent] reads:
    [orderEvent.Status] and [orderEvent.Symbol]. *)
Record OrderEvent := {
  Status : OrderStatus;
  Symbol_ : Symbol
}.

Definition OnOrderEvent (orderEvent : OrderEvent) (self : t) : t * list Call :=
  if bool_decide (Status orderEvent = OrderStatus_Filled) then
    (self, [Debug [Lit "Purchased Stock: "; Sym (Symbol_ orderEvent)]])
  else
    (self, []).

(** The platform delivers the slices of a backtest one after the other;
    [run] threads the object through [OnData] and collects the calls. *)
Fixpoint run (slices : list Slice) (self : t) : option (t * list Call) :=
  match slices with
  | [] => Some (self, [])
  | slice :: slices =>
      '(self, calls) ← OnData slice self;
      '(self, calls') ← run slices self;
      Some (self, calls ++ calls')
  end.

(** The observations for the subscribed custom data symbol that a run of
    slices delivers, oldest first. *)
Definition observations (slices : list Slice) (self : t) : list CoinGecko :=
  omap (λ slice, Get_CoinGecko slice !! custom_data_symbol self) slices.

End Algorithm.
End CoinGeckoAlgorithm.

(** ** Python's [sorted] *)

(** [sorted(l, key=key, reverse=reverse)] is a stable sort: it orders by
    the key, ascending or (with [reverse]) descending, and keeps elements
    with equal keys in the order they have in [l].  There is one such
    list; it is computed here by insertion from the right. *)
Module Python.
Section Sorted.
Context {A : Type} (key : A → Z) (reverse : bool).

(** [ahead y x]: the key of [y] sorts strictly before the key of [x]. *)
Definition ahead (y x : A) : bool :=
  if reverse then key y >? key x else key y <? key x.

(** Insert [x], which comes from the left of all of [l], into sorted [l]:
    after the elements strictly ahead of it, before its equals. *)
Fixpoint insert (x : A) (l : list A) : list A :=
  match l with
  | [] => [x]
  | y :: l' => if ahead y x then y :: insert x l' else x :: y :: l'
  end.

Definition sorted (l : list A) : list A := foldr insert [] l.

(** [x] may stand before [y] in the sorted list: [y] is not strictly
    ahead of it. *)
Definition in_order (x y : A) : Prop := ahead y x = false.

End Sorted.
End Python.

(** ** CoinGeckoUniverseSelectionModelAlgorithm.py *)
Module CoinGeckoUniverseSelectionModelAlgorithm.
Section Algorithm.
Context `{Host}.

(** The script keeps no attributes of its own on [self]; its methods are
    given by the calls they make and the value they return. *)
Definition Initialize : list Call :=
  [ SetUniverseSettingsResolution Resolution_Daily;
    SetStartDate 2018 4 4;
    SetEndDate 2018 4 6;
    SetCash 100000;
    SetUniverseSelection_CoinGeckoUniverseSelectionModel self_UniverseSelection ].

(** The local variable [selected] of [UniverseSelection]. *)
Definition selected (data : list CoinGecko) : list CoinGecko :=
  take 3 (Python.sorted MarketCap true data).

Definition UniverseSelection (data : list CoinGecko) : list Symbol * list Call :=
  let logs :=
    (λ datum, Log [Str (Coin datum); Lit ","; Num (MarketCap datum);
                   Lit ","; Num (Price datum)]) <$> data in
  ((λ x, CreateSymbol x Market_GDAX "USD") <$> selected data, logs).

Definition OnSecuritiesChanged (changes : SecurityChanges) : list Call :=
  [Log [Changes changes]].

End Algorithm.
End CoinGeckoUniverseSelectionModelAlgorithm.

(** ** What a script declares in [Initialize] *)
Section Declarations.
Context `{Host}.

Definition declares_start_date (calls : list Call) : bool :=
  existsb is_SetStartDate calls.
Definition declares_end_date (calls : list Call) : bool :=
  existsb is_SetEndDate calls.
Definition declares_cash (calls : list Call) : bool :=
  existsb is_SetCash calls.

(** The data feeds a script subscribes to, in program order. *)
Definition subscriptions (calls : list Call) : list Call :=
  filter (λ c, is_subscription c = true) calls.

End Declarations.

(** The percentage a two-sample trend comparison asks for when the newest
    market cap is that of [x] and the one before it that of [y]: long when
    it rose, short otherwise. *)
Definition trend (x y : CoinGecko) : Z :=
  if decide (MarketCap y < MarketCap x) then 1 else -1.

(** Two data points that agree on everything but their market cap. *)
Definition same_but_MarketCap (x x' : CoinGecko) : Prop :=
  Coin x = Coin x' ∧ Price x = Price x'.

(** Descending order of market cap, as a relation on data points. *)
Definition cap_ge (x y : CoinGecko) : Prop := MarketCap y ≤ MarketCap x.

(** The entries of [l] whose market cap is [k], in the order of [l]. *)
Definition with_cap (k : Z) (l : list CoinGecko) : list CoinGecko :=
  filter (λ x, MarketCap x = k) l.

(** The percentages a sequence of observations asks for, oldest first, when
    [previous] is the observation before the first of them, if any: each
    observation is compared with the one before it. *)
Fixpoint trends (previous : option CoinGecko) (observations : list CoinGecko)
    : list Z :=
  match observations with
  | [] => []
  | x :: observations =>
      match previous with
      | None => trends (Some x) observations
      | Some y => trend x y :: trends (Some x) observations
      end
  end.

(** The entries of [l] whose market cap is at least that of [x]. *)
Definition at_least (x : CoinGecko) (l : list CoinGecko) : list CoinGecko :=
  filter (λ y, MarketCap x ≤ MarketCap y) l.

(** The entries of [l] whose market cap is strictly above that of [x]. *)
Definition above (x : CoinGecko) (l : list CoinGecko) : list CoinGecko :=
  filter (λ y, MarketCap x < MarketCap y) l.

(** ** Sample inputs

    Concrete inputs over [ticker_host], on which the scripts are evaluated
    below. *)
Module Sample.
#[local] Existing Instance ticker_host.

Definition point (coin : string) (cap : Z) : CoinGecko :=
  {| Coin := coin; MarketCap := cap; Price := 7000 |}.

(** A slice with one CoinGecko point, for the symbol of [AddData]. *)
Definition slice (cap : Z) : @Slice ticker_host :=
  {| Get_CoinGecko := {[ "BTC.CoinGecko" := point "BTC" cap ]} |}.

(** A slice with a CoinGecko point for another symbol only. *)
Definition other_slice : @Slice ticker_host :=
  {| Get_CoinGecko := {[ "ETH.CoinGecko" := point "ETH" 50 ]} |}.

(** A slice without CoinGecko data. *)
Definition empty_slice : @Slice ticker_host := {| Get_CoinGecko := ∅ |}.

(** The algorithm object with the given window contents. *)
Definition algorithm (items : list CoinGecko) : @CoinGeckoAlgorithm.t ticker_host :=
  {| CoinGeckoAlgorithm.crypto_symbol := "BTCUSD";
     CoinGeckoAlgorithm.custom_data_symbol := "BTC.CoinGecko";
     CoinGeckoAlgorithm.window :=
       {| RollingWindow.Size := 2; RollingWindow.items := items |} |}.

(** A slice with the point for the symbol of [AddData] among others. *)
Definition crowded_slice (cap : Z) : @Slice ticker_host :=
  {| Get_CoinGecko :=
       {[ "BTC.CoinGecko" := point "BTC" cap;
          "ETH.CoinGecko" := point "ETH" 50;
          "XRP.CoinGecko" := point "XRP" 30 ]} |}.

(** Universes without ties, the second a reordering of the first. *)
Definition ranked : list CoinGecko :=
  [ point "ADA" 20; point "BTC" 90; point "ETH" 40; point "XRP" 30 ].
Definition ranked' : list CoinGecko :=
  [ point "XRP" 30; point "ETH" 40; point "BTC" 90; point "ADA" 20 ].

(** An order event for BTCUSD with the given status. *)
Definition order (status : nat) : @CoinGeckoAlgorithm.OrderEvent ticker_host :=
  {| CoinGeckoAlgorithm.Status := status; CoinGeckoAlgorithm.Symbol_ := "BTCUSD" |}.

(** A universe with a tie at the top and a tie at the cut. *)
Definition universe : list CoinGecko :=
  [ point "ADA" 20; point "BTC" 90; point "ETH" 40; point "XRP" 90;
    point "SOL" 40; point "DOT" 10 ].

(** The same universe with other market caps that compare the same way. *)
Definition universe' : list CoinGecko :=
  [ point "ADA" 2; point "BTC" 7; point "ETH" 5; point "XRP" 7;
    point "SOL" 5; point "DOT" 1 ].

End Sample.

(** * Properties *)

(** ** The rolling window retains the most recent observations *)
Section WindowFacts.
Context {T : Type}.
Implicit Types (w : RollingWindow.t T) (x : T) (xs : list T).

Lemma take_app_take (n k : nat) (l m : list T) :
  (n ≤ k)%nat → take n (l ++ take k m) = take n (l ++ m).
Proof.
  revert n. induction l as [|a l IH]; intros n Hn; simpl.
  - rewrite take_take. f_equal. lia.
  - destruct n as [|n]; [done|]. simpl. f_equal. apply IH. lia.
Qed.

Lemma Size_Add x w : RollingWindow.Size (RollingWindow.Add x w) = RollingWindow.Size w.
Proof. done. Qed.

Lemma Size_add_all xs w :
  RollingWindow.Size (RollingWindow.add_all xs w) = RollingWindow.Size w.
Proof. revert w. induction xs as [|x xs IH]; intros w; [done|]. simpl. by rewrite IH. Qed.

Lemma items_add_all xs w :
  RollingWindow.items (RollingWindow.add_all xs w)
  = take (RollingWindow.Size w) (reverse xs ++ RollingWindow.items w)
    ∨ xs = [].
Proof.
  revert w. induction xs as [|x xs IH]; intros w; [by right|left].
  simpl. destruct (IH (RollingWindow.Add x w)) as [->| ->].
  - rewrite Size_Add. simpl RollingWindow.items.
    rewrite take_app_take by done.
    by rewrite reverse_cons, <- app_assoc.
  - done.
Qed.

Lemma items_add_all_new xs (n : nat) :
  RollingWindow.items (RollingWindow.add_all xs (RollingWindow.new n))
  = take (n `min` length xs) (reverse xs).
Proof.
  destruct (items_add_all xs (RollingWindow.new n)) as [->| ->].
  - simpl. rewrite app_nil_r.
    destruct (decide (n ≤ length xs)%nat).
    + f_equal. lia.
    + rewrite !take_ge; [done|rewrite length_reverse; lia..].
  - simpl. by rewrite Nat.min_0_r.
Qed.

Lemma add_all_snoc xs x w :
  RollingWindow.add_all (xs ++ [x]) w = RollingWindow.Add x (RollingWindow.add_all xs w).
Proof. unfold RollingWindow.add_all. by rewrite foldl_snoc. Qed.

End WindowFacts.

(** ** CoinGeckoAlgorithm: the data handler *)
Section OnDataFacts.
Context `{Host}.
Implicit Types (self : CoinGeckoAlgorithm.t) (slice : Slice) (x y z : CoinGecko).

(** A dictionary that holds the symbol is not empty: the condition of
    [OnData] is membership of the symbol. *)
Lemma guard_is_membership (data : gmap Symbol CoinGecko) (s : Symbol) :
  truthy data && bool_decide (is_Some (data !! s)) = bool_decide (is_Some (data !! s)).
Proof.
  unfold truthy. destruct (decide (data = ∅)) as [->|Hne].
  - rewrite lookup_empty, (bool_decide_eq_false_2 (is_Some None)); [|by intros [? ?]].
    apply andb_false_r.
  - by rewrite (bool_decide_eq_false_2 _ Hne).
Qed.

Lemma OnData_miss slice self :
  Get_CoinGecko slice !! CoinGeckoAlgorithm.custom_data_symbol self = None →
  CoinGeckoAlgorithm.OnData slice self = Some (self, []).
Proof.
  intros Hnone. unfold CoinGeckoAlgorithm.OnData. cbv zeta.
  rewrite guard_is_membership, Hnone.
  rewrite bool_decide_eq_false_2; [done|]. by intros [? ?].
Qed.

(** With a point [x] for the symbol, [OnData] adds it to the window; it
    then returns if this was the first observation and otherwise compares
    [x] with the observation [y] added before it. *)
Lemma OnData_hit slice self x :
  Get_CoinGecko slice !! CoinGeckoAlgorithm.custom_data_symbol self = Some x →
  RollingWindow.Size (CoinGeckoAlgorithm.window self) = 2%nat →
  CoinGeckoAlgorithm.OnData slice self
  = Some (CoinGeckoAlgorithm.set_window
            (RollingWindow.Add x (CoinGeckoAlgorithm.window self)) self,
          match RollingWindow.items (CoinGeckoAlgorithm.window self) with
          | [] => []
          | y :: _ => [SetHoldings (CoinGeckoAlgorithm.crypto_symbol self) (trend x y)]
          end).
Proof.
  intros Hx Hsize. unfold CoinGeckoAlgorithm.OnData. cbv zeta.
  rewrite guard_is_membership, Hx.
  rewrite bool_decide_eq_true_2 by eauto. simpl.
  unfold RollingWindow.IsReady, RollingWindow.Count, RollingWindow.get.
  destruct self as [cs ds [n its]]. simpl in *. subst n.
  destruct its as [|y its]; simpl; [done|].
  unfold trend. destruct (Z.gtb_spec (MarketCap x) (MarketCap y));
    case_decide; first [done | lia].
Qed.

Lemma OnData_Size slice self self' calls :
  CoinGeckoAlgorithm.OnData slice self = Some (self', calls) →
  RollingWindow.Size (CoinGeckoAlgorithm.window self) = 2%nat →
  RollingWindow.Size (CoinGeckoAlgorithm.window self') = 2%nat
  ∧ CoinGeckoAlgorithm.crypto_symbol self' = CoinGeckoAlgorithm.crypto_symbol self
  ∧ CoinGeckoAlgorithm.custom_data_symbol self' = CoinGeckoAlgorithm.custom_data_symbol self.
Proof.
  intros Hrun Hsize.
  destruct (Get_CoinGecko slice !! CoinGeckoAlgorithm.custom_data_symbol self)
    as [x|] eqn:Hx.
  - rewrite (OnData_hit _ _ _ Hx Hsize) in Hrun. by simplify_eq.
  - rewrite (OnData_miss _ _ Hx) in Hrun. by simplify_eq.
Qed.

(** From an object whose window has capacity two, a run never raises, and
    its window is the old one with the delivered observations added. *)
Lemma run_total (slices : list Slice) self :
  RollingWindow.Size (CoinGeckoAlgorithm.window self) = 2%nat →
  ∃ calls,
    CoinGeckoAlgorithm.run slices self
    = Some (CoinGeckoAlgorithm.set_window
              (RollingWindow.add_all (CoinGeckoAlgorithm.observations slices self)
                 (CoinGeckoAlgorithm.window self)) self, calls).
Proof.
  revert self. induction slices as [|slice slices IH]; intros self Hsize.
  - exists []. by destruct self.
  - simpl. unfold CoinGeckoAlgorithm.observations. simpl.
    destruct (Get_CoinGecko slice !! CoinGeckoAlgorithm.custom_data_symbol self)
      as [x|] eqn:Hx.
    + rewrite (OnData_hit _ _ _ Hx Hsize). simpl.
      destruct (IH (CoinGeckoAlgorithm.set_window
                      (RollingWindow.Add x (CoinGeckoAlgorithm.window self)) self))
        as [calls ->]; [done|].
      simpl. eauto.
    + rewrite (OnData_miss _ _ Hx). simpl.
      destruct (IH self Hsize) as [calls ->]. simpl. eauto.
Qed.

End OnDataFacts.

Section OnDataSpec.
Context `{Host}.
Implicit Types (self : CoinGeckoAlgorithm.t) (slice : Slice) (x y z : CoinGecko).


(** C1: when the slice holds a CoinGecko point [x] for the custom data
    symbol and the window (of capacity two) already holds two observations
    [y], the newer, and [z], [OnData] returns after calling
    [SetHoldings(crypto_symbol, 1)] if the market cap of [x] is strictly
    greater than that of [y], and [SetHoldings(crypto_symbol, -1)]
    otherwise, equal market caps included; the window then holds [x] and
    [y]. *)
Theorem OnData_two_sample_trend slice self x y z :
  Get_CoinGecko slice !! CoinGeckoAlgorithm.custom_data_symbol self = Some x →
  RollingWindow.Size (CoinGeckoAlgorithm.window self) = 2%nat →
  RollingWindow.items (CoinGeckoAlgorithm.window self) = [y; z] →
  ∃ self' percentage,
    CoinGeckoAlgorithm.OnData slice self
    = Some (self', [SetHoldings (CoinGeckoAlgorithm.crypto_symbol self) percentage])
    ∧ (MarketCap x > MarketCap y → percentage = 1)
    ∧ (MarketCap x ≤ MarketCap y → percentage = -1)
    ∧ RollingWindow.items (CoinGeckoAlgorithm.window self') = [x; y].
Proof.
  intros Hx Hsize Hitems.
  rewrite (OnData_hit _ _ _ Hx Hsize), Hitems.
  eexists _, _. split; [done|].
  unfold trend. repeat split.
  - intros ?. case_decide; [done|lia].
  - intros ?. case_decide; [lia|done].
  - simpl. by rewrite Hsize, Hitems.
Qed.


(** C9: if the slice holds no CoinGecko data at all, or holds CoinGecko
    data but none for the subscribed custom data symbol, [OnData] returns
    the object as it was, its window included, and makes no call to the
    platform: the portfolio is not touched. *)
Theorem OnData_without_observation slice self :
  Get_CoinGecko slice = ∅
  ∨ Get_CoinGecko slice !! CoinGeckoAlgorithm.custom_data_symbol self = None →
  CoinGeckoAlgorithm.OnData slice self = Some (self, []).
Proof.
  intros [Hempty|Hnone]; apply OnData_miss; [|done].
  by rewrite Hempty, lookup_empty.
Qed.

End OnDataSpec.

Section WindowSpec.
Context `{Host}.

(** C4: the window of [CoinGeckoAlgorithm] has capacity two, starts empty,
    and after any sequence of [Add]s holds the [min 2 n] most recent of the
    [n] observations added, newest at index 0.  So after any run of slices
    from [Initialize] the window holds the latest observations delivered
    for the custom data symbol, and the next point [x] for that symbol
    is compared with [y], the latest observation before it. *)
Theorem window_holds_latest_two (slices : list Slice) :
  let init := CoinGeckoAlgorithm.Initialize.1 in
  let obs := CoinGeckoAlgorithm.observations slices init in
  CoinGeckoAlgorithm.window init = RollingWindow.new 2
  ∧ (∀ xs : list CoinGecko,
       RollingWindow.Size (RollingWindow.add_all xs (RollingWindow.new 2)) = 2%nat
       ∧ RollingWindow.items (RollingWindow.add_all xs (RollingWindow.new 2))
         = take (2 `min` length xs) (reverse xs))
  ∧ ∃ self' calls,
      CoinGeckoAlgorithm.run slices init = Some (self', calls)
      ∧ CoinGeckoAlgorithm.window self' = RollingWindow.add_all obs (RollingWindow.new 2)
      ∧ ∀ slice x y,
          Get_CoinGecko slice !! CoinGeckoAlgorithm.custom_data_symbol init = Some x →
          last obs = Some y →
          ∃ self'',
            CoinGeckoAlgorithm.OnData slice self'
            = Some (self'', [SetHoldings (CoinGeckoAlgorithm.crypto_symbol init)
                               (trend x y)])
            ∧ CoinGeckoAlgorithm.window self''
              = RollingWindow.add_all (obs ++ [x]) (RollingWindow.new 2).
Proof.
  intros init obs. split; [done|]. split.
  { intros xs. split; [apply Size_add_all | apply items_add_all_new]. }
  destruct (run_total slices init) as [calls Hrun]; [done|].
  eexists _, calls. split; [exact Hrun|]. split; [done|].
  intros slice x y Hx Hlast.
  exists (CoinGeckoAlgorithm.set_window
            (RollingWindow.add_all (obs ++ [x]) (RollingWindow.new 2)) init).
  split; [|done].
  rewrite (OnData_hit _ _ x); [| exact Hx | simpl; apply Size_add_all].
  simpl CoinGeckoAlgorithm.window. fold obs.
  rewrite add_all_snoc, items_add_all_new.
  apply last_Some in Hlast as [obs' Hobs]. rewrite Hobs.
  rewrite reverse_snoc, length_app. simpl length.
  replace (2 `min` (length obs' + 1))%nat with (S (1 `min` length obs')) by lia.
  reflexivity.
Qed.

End WindowSpec.

(** ** CoinGeckoAlgorithm: order events *)
Section OrderEventSpec.
Context `{Host}.

(** C6: [OnOrderEvent] emits a debug message if and only if the status of
    the order event is [Filled]; for any other status it makes no call at
    all.  It never changes the object. *)
Theorem OnOrderEvent_logs_fills_only
    (orderEvent : CoinGeckoAlgorithm.OrderEvent) (self : CoinGeckoAlgorithm.t) :
  let calls := (CoinGeckoAlgorithm.OnOrderEvent orderEvent self).2 in
  ((∃ message, Debug message ∈ calls)
   ↔ CoinGeckoAlgorithm.Status orderEvent = OrderStatus_Filled)
  ∧ (CoinGeckoAlgorithm.Status orderEvent ≠ OrderStatus_Filled → calls = [])
  ∧ (CoinGeckoAlgorithm.OnOrderEvent orderEvent self).1 = self.
Proof.
  unfold CoinGeckoAlgorithm.OnOrderEvent.
  case_bool_decide as Hst; simpl; repeat split; try done.
  - intros _. eexists. apply list_elem_of_here.
  - intros [m Hm]. by apply not_elem_of_nil in Hm.
Qed.

End OrderEventSpec.

(** ** What the scripts declare and subscribe to *)
Section InitializeSpec.
Context `{Host}.

(** C3, amended: both scripts declare a start date (2018-04-04) and an end
    date (2018-04-06) in [Initialize]; the universe selection script also
    declares its cash, 100000, while [CoinGeckoAlgorithm] makes no
    [SetCash] call. *)
Theorem Initialize_declarations :
  let calls := CoinGeckoAlgorithm.Initialize.2 in
  let calls' := CoinGeckoUniverseSelectionModelAlgorithm.Initialize in
  (SetStartDate 2018 4 4 ∈ calls ∧ SetEndDate 2018 4 6 ∈ calls
   ∧ declares_cash calls = false)
  ∧ (SetStartDate 2018 4 4 ∈ calls' ∧ SetEndDate 2018 4 6 ∈ calls'
     ∧ SetCash 100000 ∈ calls')
  ∧ declares_start_date calls = true ∧ declares_end_date calls = true
  ∧ declares_start_date calls' = true ∧ declares_end_date calls' = true
  ∧ declares_cash calls' = true.
Proof.
  simpl. repeat split; try reflexivity;
    unfold CoinGeckoUniverseSelectionModelAlgorithm.Initialize;
    repeat first [apply list_elem_of_here | apply list_elem_of_further].
Qed.

(** C8: [CoinGeckoAlgorithm] subscribes to exactly two data feeds in
    [Initialize], the BTCUSD crypto feed and the CoinGecko custom data feed
    for "BTC", and the universe selection script to one, its custom
    universe. *)
Theorem Initialize_subscriptions :
  subscriptions CoinGeckoAlgorithm.Initialize.2
  = [AddCrypto "BTCUSD"; AddData CoinGecko_t "BTC"]
  ∧ subscriptions CoinGeckoUniverseSelectionModelAlgorithm.Initialize
    = [SetUniverseSelection_CoinGeckoUniverseSelectionModel self_UniverseSelection].
Proof. split; reflexivity. Qed.

End InitializeSpec.

(** ** [sorted] is the stable sort *)
Section SortedFacts.
Context {A : Type} (key : A → Z) (reverse : bool).
Implicit Types (x y : A) (l : list A).

Lemma insert_Permutation x l : Python.insert key reverse x l ≡ₚ x :: l.
Proof.
  induction l as [|y l IH]; simpl; [done|].
  destruct (Python.ahead key reverse y x); [|done].
  by rewrite IH, Permutation_swap.
Qed.

Lemma sorted_Permutation l : Python.sorted key reverse l ≡ₚ l.
Proof.
  induction l as [|x l IH]; simpl; [done|].
  by rewrite insert_Permutation, IH.
Qed.

Lemma length_sorted l : length (Python.sorted key reverse l) = length l.
Proof. by rewrite sorted_Permutation. Qed.

Lemma in_order_trans x y z :
  Python.in_order key reverse x y → Python.in_order key reverse y z →
  Python.in_order key reverse x z.
Proof.
  unfold Python.in_order, Python.ahead. destruct reverse; lia.
Qed.

Lemma ahead_in_order y x :
  Python.ahead key reverse y x = true → Python.in_order key reverse y x.
Proof.
  unfold Python.in_order, Python.ahead. destruct reverse; lia.
Qed.

Lemma insert_StronglySorted x l :
  StronglySorted (Python.in_order key reverse) l →
  StronglySorted (Python.in_order key reverse) (Python.insert key reverse x l).
Proof.
  induction l as [|y l IH]; simpl; intros Hl.
  - repeat constructor.
  - apply StronglySorted_cons in Hl as [Hy Hl].
    destruct (Python.ahead key reverse y x) eqn:Hyx.
    + apply StronglySorted_cons. split; [|by apply IH].
      rewrite insert_Permutation. constructor; [|done].
      by apply ahead_in_order.
    + apply StronglySorted_cons. split; [|by apply StronglySorted_cons].
      constructor; [done|].
      eapply Forall_impl; [exact Hy|].
      intros z Hz. by eapply in_order_trans.
Qed.

Lemma sorted_StronglySorted l :
  StronglySorted (Python.in_order key reverse) (Python.sorted key reverse l).
Proof.
  induction l as [|x l IH]; simpl; [constructor|].
  by apply insert_StronglySorted.
Qed.

(** Stability: the elements with a given key keep their order. *)
Lemma insert_filter_key (k : Z) x l :
  filter (λ y, key y = k) (Python.insert key reverse x l)
  = filter (λ y, key y = k) (x :: l).
Proof.
  induction l as [|y l IH]; simpl; [done|].
  destruct (Python.ahead key reverse y x) eqn:Hyx; [|done].
  rewrite filter_cons, IH, !filter_cons.
  assert (key y ≠ key x).
  { unfold Python.ahead in Hyx. destruct reverse; lia. }
  repeat case_decide; congruence.
Qed.

Lemma sorted_filter_key (k : Z) l :
  filter (λ y, key y = k) (Python.sorted key reverse l)
  = filter (λ y, key y = k) l.
Proof.
  induction l as [|x l IH]; simpl; [done|].
  by rewrite insert_filter_key, !filter_cons, IH.
Qed.

(** There is one stable sort: two sorted lists with the same elements for
    every key, in the same order, are equal.  So [sorted] is the result of
    any stable sorting procedure. *)
Lemma in_order_antisym x y :
  Python.in_order key reverse x y → Python.in_order key reverse y x →
  key x = key y.
Proof. unfold Python.in_order, Python.ahead. destruct reverse; lia. Qed.

Lemma in_order_refl_key x y : key x = key y → Python.in_order key reverse x y.
Proof. unfold Python.in_order, Python.ahead. destruct reverse; lia. Qed.

Lemma head_in_order_filter x y l1 l2 :
  Forall (Python.in_order key reverse x) l1 →
  filter (λ z, key z = key y) (x :: l1) = filter (λ z, key z = key y) (y :: l2) →
  Python.in_order key reverse x y.
Proof.
  intros Hx Hfilter.
  assert (y ∈ filter (λ z, key z = key y) (x :: l1)) as Hy.
  { rewrite Hfilter, filter_cons, decide_True by done. apply list_elem_of_here. }
  apply list_elem_of_filter in Hy as [_ Hy].
  apply elem_of_cons in Hy as [->|Hy].
  - by apply in_order_refl_key.
  - by eapply Forall_forall in Hx.
Qed.

Lemma stable_sort_unique l1 l2 :
  StronglySorted (Python.in_order key reverse) l1 →
  StronglySorted (Python.in_order key reverse) l2 →
  (∀ k, filter (λ z, key z = k) l1 = filter (λ z, key z = k) l2) →
  l1 = l2.
Proof.
  revert l2. induction l1 as [|x l1 IH]; intros [|y l2] H1 H2 Hfilter.
  - done.
  - specialize (Hfilter (key y)). by rewrite filter_cons, decide_True in Hfilter.
  - specialize (Hfilter (key x)). by rewrite filter_cons, decide_True in Hfilter.
  - apply StronglySorted_cons in H1 as [Hx H1], H2 as [Hy H2].
    assert (key x = key y) as Hkey.
    { apply in_order_antisym.
      - by eapply head_in_order_filter.
      - eapply head_in_order_filter; [done|]. symmetry. apply Hfilter. }
    pose proof (Hfilter (key x)) as Hhead.
    rewrite !filter_cons, decide_True, decide_True in Hhead by done.
    injection Hhead as -> _.
    f_equal. apply IH; [done..|].
    intros k. specialize (Hfilter k). rewrite !filter_cons in Hfilter.
    case_decide; by simplify_eq.
Qed.

Lemma sorted_unique l l' :
  StronglySorted (Python.in_order key reverse) l' →
  (∀ k, filter (λ z, key z = k) l' = filter (λ z, key z = k) l) →
  l' = Python.sorted key reverse l.
Proof.
  intros Hsorted Hstable. apply stable_sort_unique; [done|apply sorted_StronglySorted|].
  intros k. by rewrite sorted_filter_key.
Qed.

End SortedFacts.

(** The sort only looks at how the keys compare, and commutes with
    renaming the elements. *)
Section SortedKeys.
Context {A B : Type} (reverse : bool).

Lemma insert_fmap (f : B → A) (key : A → Z) (x : B) (l : list B) :
  Python.insert key reverse (f x) (f <$> l)
  = f <$> Python.insert (key ∘ f) reverse x l.
Proof.
  induction l as [|y l IH]; csimpl; [done|].
  change (Python.ahead key reverse (f y) (f x))
    with (Python.ahead (key ∘ f) reverse y x).
  destruct (Python.ahead (key ∘ f) reverse y x); [|done].
  csimpl. by rewrite IH.
Qed.

Lemma sorted_fmap (f : B → A) (key : A → Z) (l : list B) :
  Python.sorted key reverse (f <$> l) = f <$> Python.sorted (key ∘ f) reverse l.
Proof.
  induction l as [|x l IH]; csimpl; [done|].
  by rewrite IH, insert_fmap.
Qed.

Lemma insert_ext (key1 key2 : B → Z) (x : B) (l : list B) :
  (∀ y, y ∈ l → Python.ahead key1 reverse y x = Python.ahead key2 reverse y x) →
  Python.insert key1 reverse x l = Python.insert key2 reverse x l.
Proof.
  induction l as [|y l IH]; simpl; intros Hl; [done|].
  rewrite (Hl y) by apply list_elem_of_here.
  destruct (Python.ahead key2 reverse y x); [|done].
  rewrite IH; [done|]. intros z Hz. apply Hl. by apply list_elem_of_further.
Qed.

Lemma sorted_ext (key1 key2 : B → Z) (l : list B) :
  (∀ x y, x ∈ l → y ∈ l →
     Python.ahead key1 reverse y x = Python.ahead key2 reverse y x) →
  Python.sorted key1 reverse l = Python.sorted key2 reverse l.
Proof.
  induction l as [|x l IH]; simpl; intros Hl; [done|].
  rewrite IH.
  - apply insert_ext. intros y Hy.
    apply Hl; [apply list_elem_of_here|].
    apply list_elem_of_further. by rewrite sorted_Permutation in Hy.
  - intros y z Hy Hz. apply Hl; by apply list_elem_of_further.
Qed.

End SortedKeys.

(** ** Universe selection *)
Section UniverseSelectionSpec.
Context `{Host}.
Implicit Types (data : list CoinGecko) (x y : CoinGecko).

Lemma in_order_cap_ge x y : Python.in_order MarketCap true x y ↔ cap_ge x y.
Proof. unfold Python.in_order, Python.ahead, cap_ge. lia. Qed.

Lemma sorted_cap_ge data : StronglySorted cap_ge (Python.sorted MarketCap true data).
Proof.
  pose proof (sorted_StronglySorted MarketCap true data) as Hs.
  induction Hs as [|x l _ IH Hx]; constructor; [done|].
  eapply Forall_impl; [exact Hx|]. intros y. apply in_order_cap_ge.
Qed.

Lemma sorted_take_drop data :
  Python.sorted MarketCap true data
  = CoinGeckoUniverseSelectionModelAlgorithm.selected data
    ++ drop 3 (Python.sorted MarketCap true data).
Proof.
  unfold CoinGeckoUniverseSelectionModelAlgorithm.selected. by rewrite take_drop.
Qed.

(** C2: [UniverseSelection] returns, for every input list, the symbols of
    [selected], the [min 3 (len data)] entries of [data] with the largest
    market caps: [data] is [selected] together with some [rest] of which no
    entry has a larger market cap than an entry of [selected]; the
    entries of [selected] are in non-increasing order of market cap, and
    each symbol is [CreateSymbol(Market.GDAX, "USD")] of its entry, in that
    order. *)
Theorem UniverseSelection_top_three data :
  let selected := CoinGeckoUniverseSelectionModelAlgorithm.selected data in
  (CoinGeckoUniverseSelectionModelAlgorithm.UniverseSelection data).1
  = (λ x, CreateSymbol x Market_GDAX "USD") <$> selected
  ∧ length selected = (3 `min` length data)%nat
  ∧ StronglySorted cap_ge selected
  ∧ ∃ rest,
      data ≡ₚ selected ++ rest
      ∧ ∀ x y, x ∈ selected → y ∈ rest → MarketCap y ≤ MarketCap x.
Proof.
  intros selected. split; [done|].
  pose proof (sorted_cap_ge data) as Hsorted.
  rewrite sorted_take_drop in Hsorted. fold selected in Hsorted.
  split; [|split].
  - unfold selected, CoinGeckoUniverseSelectionModelAlgorithm.selected.
    by rewrite length_take, length_sorted.
  - by eapply StronglySorted_app_1_l.
  - exists (drop 3 (Python.sorted MarketCap true data)). split.
    + unfold selected. by rewrite <- sorted_take_drop, sorted_Permutation.
    + intros x y Hx Hy.
      exact (StronglySorted_app_1_elem_of _ _ _ _ _ Hsorted Hx Hy).
Qed.

(** C10: the descending sort of [UniverseSelection] is stable.  For every
    market cap [k], the entries with market cap [k] stand in the sorted
    list in the order they have in the input, and the ones among the
    selected three are the first of them in the input: ties are broken by
    input position.  The result is a function of the input list: equal
    lists give equal results. *)
Theorem UniverseSelection_ties_by_position data (k : Z) :
  let selected := CoinGeckoUniverseSelectionModelAlgorithm.selected data in
  with_cap k (Python.sorted MarketCap true data) = with_cap k data
  ∧ with_cap k selected `prefix_of` with_cap k data
  ∧ (CoinGeckoUniverseSelectionModelAlgorithm.UniverseSelection data).1
    = (λ x, CreateSymbol x Market_GDAX "USD") <$> selected
  ∧ ∀ data',
      data' = data →
      CoinGeckoUniverseSelectionModelAlgorithm.UniverseSelection data'
      = CoinGeckoUniverseSelectionModelAlgorithm.UniverseSelection data.
Proof.
  cbv zeta. unfold with_cap.
  split; [apply sorted_filter_key|]. split; [|split; [done|by intros ? ->]].
  rewrite <- (sorted_filter_key MarketCap true k data).
  rewrite (sorted_take_drop data), filter_app.
  by eexists.
Qed.

(** C7: market caps only serve as the ranking key.  Let [data'] be [data]
    with the market caps replaced, nothing else changed, such that the
    entries compare the same way: the entry at [i] is below the entry at
    [j] in [data'] exactly when it is in [data].  Then the entries both
    calls select correspond one to one, alike but for their market caps,
    and, [CreateSymbol] not reading the market cap, both calls return the
    same list of symbols. *)
Theorem UniverseSelection_ranking_key_only data data' :
  Forall2 same_but_MarketCap data data' →
  (∀ i j x y x' y',
     data !! i = Some x → data !! j = Some y →
     data' !! i = Some x' → data' !! j = Some y' →
     MarketCap x < MarketCap y ↔ MarketCap x' < MarketCap y') →
  Forall2 same_but_MarketCap
    (CoinGeckoUniverseSelectionModelAlgorithm.selected data)
    (CoinGeckoUniverseSelectionModelAlgorithm.selected data')
  ∧ ((∀ x x' market quote,
        same_but_MarketCap x x' →
        CreateSymbol x market quote = CreateSymbol x' market quote) →
     (CoinGeckoUniverseSelectionModelAlgorithm.UniverseSelection data).1
     = (CoinGeckoUniverseSelectionModelAlgorithm.UniverseSelection data').1).
Proof.
  intros Hsame Horder.
  pose proof (Forall2_length _ _ _ Hsame) as Hlen.
  set (ps := zip data data').
  assert (Hdata : data = ps.*1) by (unfold ps; rewrite fst_zip; [done|lia]).
  assert (Hdata' : data' = ps.*2) by (unfold ps; rewrite snd_zip; [done|lia]).
  assert (Hps : ∀ p, p ∈ ps → ∃ i, data !! i = Some p.1 ∧ data' !! i = Some p.2).
  { intros [x x'] Hp. apply list_elem_of_lookup in Hp as [i Hi].
    exists i. unfold ps in Hi. apply lookup_zip_with_Some in Hi.
    destruct Hi as (? & ? & ? & ? & ?). by simplify_eq. }
  assert (Hkeys : Python.sorted (MarketCap ∘ fst) true ps
                  = Python.sorted (MarketCap ∘ snd) true ps).
  { apply sorted_ext. intros p q Hp Hq.
    destruct (Hps p Hp) as (i & Hi & Hi'), (Hps q Hq) as (j & Hj & Hj').
    pose proof (Horder i j _ _ _ _ Hi Hj Hi' Hj') as Hiff.
    unfold Python.ahead. simpl.
    destruct (Z.gtb_spec (MarketCap q.1) (MarketCap p.1)),
             (Z.gtb_spec (MarketCap q.2) (MarketCap p.2)); first [done | lia]. }
  assert (Hselected :
    Forall2 same_but_MarketCap
      (CoinGeckoUniverseSelectionModelAlgorithm.selected data)
      (CoinGeckoUniverseSelectionModelAlgorithm.selected data')).
  { unfold CoinGeckoUniverseSelectionModelAlgorithm.selected.
    rewrite Hdata at 1. rewrite Hdata' at 1.
    rewrite !sorted_fmap, <- Hkeys, <- !fmap_take.
    apply Forall2_fmap, Forall_Forall2_diag, Forall_forall. intros p Hp.
    apply subseteq_take in Hp. rewrite sorted_Permutation in Hp.
    destruct (Hps p Hp) as (i & Hi & Hi').
    by eapply Forall2_lookup_lr. }
  split; [done|]. intros Hsymbol. simpl.
  induction Hselected as [|x x' l l' Hx _ IH]; csimpl; [done|].
  by rewrite IH, (Hsymbol x x' _ _ Hx).
Qed.

End UniverseSelectionSpec.

(** * The scripts on sample inputs *)
Section Evaluation.
#[local] Existing Instance ticker_host.

Example Initialize_state :
  CoinGeckoAlgorithm.Initialize.1 = Sample.algorithm [].
Proof. reflexivity. Qed.

(** Three rising-then-flat observations, with slices in between that
    bring nothing for the symbol: no call on the first observation, long
    on the rise, short on the tie. *)
Example run_sample :
  CoinGeckoAlgorithm.run
    [Sample.slice 100; Sample.empty_slice; Sample.slice 120;
     Sample.other_slice; Sample.slice 120]
    CoinGeckoAlgorithm.Initialize.1
  = Some (Sample.algorithm [Sample.point "BTC" 120; Sample.point "BTC" 120],
          [SetHoldings "BTCUSD" 1; SetHoldings "BTCUSD" (-1)]).
Proof. vm_compute. reflexivity. Qed.

(** With one observation in the window the next one makes it ready: the
    handler trades on the second observation. *)
Example OnData_second_observation :
  CoinGeckoAlgorithm.OnData (Sample.slice 80) (Sample.algorithm [Sample.point "BTC" 100])
  = Some (Sample.algorithm [Sample.point "BTC" 80; Sample.point "BTC" 100],
          [SetHoldings "BTCUSD" (-1)]).
Proof. vm_compute. reflexivity. Qed.

Example sorted_sample :
  Coin <$> Python.sorted MarketCap true Sample.universe
  = ["BTC"; "XRP"; "ETH"; "SOL"; "ADA"; "DOT"].
Proof. reflexivity. Qed.

Example UniverseSelection_sample :
  (CoinGeckoUniverseSelectionModelAlgorithm.UniverseSelection Sample.universe).1
  = ["BTCUSD"; "XRPUSD"; "ETHUSD"].
Proof. reflexivity. Qed.

Example UniverseSelection_short :
  (CoinGeckoUniverseSelectionModelAlgorithm.UniverseSelection
     [Sample.point "ADA" 20; Sample.point "BTC" 90]).1
  = ["BTCUSD"; "ADAUSD"].
Proof. reflexivity. Qed.

Example UniverseSelection_logs :
  (CoinGeckoUniverseSelectionModelAlgorithm.UniverseSelection
     [Sample.point "ADA" 20]).2
  = [Log [Str "ADA"; Lit ","; Num 20; Lit ","; Num 7000]].
Proof. reflexivity. Qed.

End Evaluation.

(** * The theorems at the sample inputs *)
Section Instances.
#[local] Existing Instance ticker_host.

(** The trend comparison on a window that holds two observations. *)
Lemma OnData_two_sample_trend_sample :
  ∃ self' percentage,
    CoinGeckoAlgorithm.OnData (Sample.slice 120)
      (Sample.algorithm [Sample.point "BTC" 100; Sample.point "BTC" 90])
    = Some (self', [SetHoldings "BTCUSD" percentage])
    ∧ (120 > 100 → percentage = 1)
    ∧ (120 ≤ 100 → percentage = -1)
    ∧ RollingWindow.items (CoinGeckoAlgorithm.window self')
      = [Sample.point "BTC" 120; Sample.point "BTC" 100].
Proof.
  apply (OnData_two_sample_trend (Sample.slice 120)
           (Sample.algorithm [Sample.point "BTC" 100; Sample.point "BTC" 90])
           (Sample.point "BTC" 120) (Sample.point "BTC" 100) (Sample.point "BTC" 90)).
  - vm_compute. reflexivity.
  - reflexivity.
  - reflexivity.
Defined.


(** A slice without CoinGecko data, and one with data for another symbol. *)
Lemma OnData_without_observation_sample :
  CoinGeckoAlgorithm.OnData Sample.empty_slice
    (Sample.algorithm [Sample.point "BTC" 100; Sample.point "BTC" 90])
  = Some (Sample.algorithm [Sample.point "BTC" 100; Sample.point "BTC" 90], [])
  ∧ CoinGeckoAlgorithm.OnData Sample.other_slice
      (Sample.algorithm [Sample.point "BTC" 100; Sample.point "BTC" 90])
    = Some (Sample.algorithm [Sample.point "BTC" 100; Sample.point "BTC" 90], []).
Proof.
  split.
  - apply (OnData_without_observation Sample.empty_slice). left. reflexivity.
  - apply (OnData_without_observation Sample.other_slice). right.
    vm_compute. reflexivity.
Defined.

(** Replacing the market caps of the sample universe by others that
    compare the same way leaves the selection as it is. *)
Lemma UniverseSelection_ranking_key_only_sample :
  Forall2 same_but_MarketCap
    (CoinGeckoUniverseSelectionModelAlgorithm.selected Sample.universe)
    (CoinGeckoUniverseSelectionModelAlgorithm.selected Sample.universe')
  ∧ (CoinGeckoUniverseSelectionModelAlgorithm.UniverseSelection Sample.universe).1
    = (CoinGeckoUniverseSelectionModelAlgorithm.UniverseSelection Sample.universe').1.
Proof.
  destruct (UniverseSelection_ranking_key_only Sample.universe Sample.universe')
    as [Hselected Hsymbols].
  - unfold Sample.universe, Sample.universe'.
    repeat (constructor; [split; reflexivity|]). constructor.
  - intros i j x y x' y' Hi Hj Hi' Hj'.
    unfold Sample.universe, Sample.universe' in *.
    destruct i as [|[|[|[|[|[|i]]]]]]; simpl in Hi, Hi'; simplify_eq;
      destruct j as [|[|[|[|[|[|j]]]]]]; simpl in Hj, Hj'; simplify_eq;
      simpl; lia.
  - split; [exact Hselected|]. apply Hsymbols.
    intros x x' market quote [Hcoin _]. simpl. by rewrite Hcoin.
Defined.

(** After two observations, 100 and then 120, the next one, 110, is
    compared with 120. *)
Lemma window_holds_latest_two_sample :
  ∃ self' self'' calls,
    CoinGeckoAlgorithm.run [Sample.slice 100; Sample.other_slice; Sample.slice 120]
      CoinGeckoAlgorithm.Initialize.1
    = Some (self', calls)
    ∧ RollingWindow.items (CoinGeckoAlgorithm.window self')
      = [Sample.point "BTC" 120; Sample.point "BTC" 100]
    ∧ CoinGeckoAlgorithm.OnData (Sample.slice 110) self'
      = Some (self'', [SetHoldings "BTCUSD" (-1)])
    ∧ RollingWindow.items (CoinGeckoAlgorithm.window self'')
      = [Sample.point "BTC" 110; Sample.point "BTC" 120].
Proof.
  destruct (window_holds_latest_two
              [Sample.slice 100; Sample.other_slice; Sample.slice 120])
    as (_ & _ & self' & calls & Hrun & Hwindow & Hnext).
  destruct (Hnext (Sample.slice 110) (Sample.point "BTC" 110) (Sample.point "BTC" 120))
    as (self'' & Hdata & Hwindow').
  - vm_compute. reflexivity.
  - vm_compute. reflexivity.
  - exists self', self'', calls. split; [exact Hrun|].
    split; [by rewrite Hwindow|]. split; [exact Hdata|]. by rewrite Hwindow'.
Defined.

(** A filled order (status 3 on [ticker_host]) is reported, an order in
    another status is not. *)
Lemma OnOrderEvent_logs_fills_only_sample :
  (CoinGeckoAlgorithm.OnOrderEvent (Sample.order 1) (Sample.algorithm [])).2 = []
  ∧ ∃ message,
      Debug message
      ∈ (CoinGeckoAlgorithm.OnOrderEvent (Sample.order 3) (Sample.algorithm [])).2.
Proof.
  split.
  - apply (OnOrderEvent_logs_fills_only (Sample.order 1) (Sample.algorithm [])).
    simpl. lia.
  - apply (OnOrderEvent_logs_fills_only (Sample.order 3) (Sample.algorithm [])).
    reflexivity.
Defined.

(** In the sample universe ETH and SOL tie at the cut: ETH, the earlier
    one in the input, is selected. *)
Lemma UniverseSelection_ties_by_position_sample :
  Coin <$> with_cap 40 (CoinGeckoUniverseSelectionModelAlgorithm.selected Sample.universe)
  = ["ETH"]
  ∧ with_cap 40 (CoinGeckoUniverseSelectionModelAlgorithm.selected Sample.universe)
    `prefix_of` with_cap 40 Sample.universe
  ∧ CoinGeckoUniverseSelectionModelAlgorithm.UniverseSelection
      (take 6 Sample.universe)
    = CoinGeckoUniverseSelectionModelAlgorithm.UniverseSelection Sample.universe.
Proof.
  destruct (UniverseSelection_ties_by_position Sample.universe 40)
    as (_ & Hprefix & _ & Hfun).
  split; [reflexivity|]. split; [exact Hprefix|].
  apply Hfun. reflexivity.
Defined.


(** C3 as stated fails: [CoinGeckoAlgorithm] declares no cash. *)
Lemma Initialize_declares_cash_counterexample :
  ¬ (∀ calls : list Call,
       calls ∈ [CoinGeckoAlgorithm.Initialize.2;
                CoinGeckoUniverseSelectionModelAlgorithm.Initialize] →
       declares_start_date calls = true
       ∧ declares_end_date calls = true
       ∧ declares_cash calls = true).
Proof.
  intros Hall.
  destruct (Hall CoinGeckoAlgorithm.Initialize.2) as (_ & _ & Hcash).
  - apply list_elem_of_here.
  - vm_compute in Hcash. discriminate.
Defined.

End Instances.

(** * Further properties of the scripts *)

(** ** A backtest of CoinGeckoAlgorithm *)
Section BacktestFacts.
Context `{Host}.
Implicit Types (self : CoinGeckoAlgorithm.t) (slice : Slice) (x y : CoinGecko).

Lemma trends_Some y (obs : list CoinGecko) :
  trends (Some y) obs = zip_with trend obs (y :: obs).
Proof.
  revert y. induction obs as [|x obs IH]; intros y; simpl; [done|].
  by rewrite IH.
Qed.

Lemma trends_None (obs : list CoinGecko) :
  trends None obs = zip_with trend (drop 1 obs) obs.
Proof. destruct obs as [|x obs]; simpl; [done|]. by rewrite trends_Some, drop_0. Qed.

Lemma trends_snoc previous (obs : list CoinGecko) y x :
  trends previous (obs ++ [y; x]) = trends previous (obs ++ [y]) ++ [trend x y].
Proof.
  revert previous. induction obs as [|z obs IH]; intros previous; simpl.
  - by destruct previous.
  - destruct previous; simpl; by rewrite IH.
Qed.

(** The calls of a run are the trends of the observations it delivers,
    the first of them compared with the newest one already in the window. *)
Lemma run_trends (slices : list Slice) self :
  RollingWindow.Size (CoinGeckoAlgorithm.window self) = 2%nat →
  ∃ self',
    CoinGeckoAlgorithm.run slices self
    = Some (self',
            SetHoldings (CoinGeckoAlgorithm.crypto_symbol self)
            <$> trends (head (RollingWindow.items (CoinGeckoAlgorithm.window self)))
                  (CoinGeckoAlgorithm.observations slices self)).
Proof.
  revert self. induction slices as [|slice slices IH]; intros self Hsize.
  - by exists self.
  - simpl. unfold CoinGeckoAlgorithm.observations. simpl.
    destruct (Get_CoinGecko slice !! CoinGeckoAlgorithm.custom_data_symbol self)
      as [x|] eqn:Hx.
    + rewrite (OnData_hit _ _ _ Hx Hsize). simpl.
      destruct (IH (CoinGeckoAlgorithm.set_window
                      (RollingWindow.Add x (CoinGeckoAlgorithm.window self)) self))
        as [self' ->]; [done|].
      exists self'. simpl. rewrite Hsize. simpl.
      unfold CoinGeckoAlgorithm.observations. simpl.
      by destruct (RollingWindow.items (CoinGeckoAlgorithm.window self)).
    + rewrite (OnData_miss _ _ Hx). simpl.
      destruct (IH self Hsize) as [self' ->]. by exists self'.
Qed.

End BacktestFacts.

Section BacktestSpec.
Context `{Host}.
Implicit Types (self : CoinGeckoAlgorithm.t) (slice : Slice) (x y : CoinGecko).

(** X1: a backtest from [Initialize] never raises in [OnData], whatever
    slices arrive, and the calls it makes are, in order, one [SetHoldings]
    on the crypto symbol for every observation but the first, each with the
    trend of that observation against the one before it: with [n]
    observations there are [n - 1] calls. *)
Theorem run_trades_on_consecutive_observations (slices : list Slice) :
  let init := CoinGeckoAlgorithm.Initialize.1 in
  let obs := CoinGeckoAlgorithm.observations slices init in
  ∃ self' calls,
    CoinGeckoAlgorithm.run slices init = Some (self', calls)
    ∧ calls = SetHoldings (CoinGeckoAlgorithm.crypto_symbol init)
              <$> zip_with trend (drop 1 obs) obs
    ∧ length calls = (length obs - 1)%nat.
Proof.
  intros init obs.
  destruct (run_trends slices init) as [self' Hrun]; [done|].
  exists self'. eexists. split; [exact Hrun|].
  change (head _) with (@None CoinGecko). fold obs.
  rewrite trends_None. split; [done|].
  rewrite length_fmap, length_zip_with, length_drop. lia.
Qed.

(** X2: the last call of a backtest is decided by the last two
    observations alone: when the observations end with [y] and then [x],
    the last call is [SetHoldings] on the crypto symbol with the trend of
    [x] against [y], whatever came before. *)
Theorem run_last_call (slices : list Slice) (earlier : list CoinGecko) x y :
  let init := CoinGeckoAlgorithm.Initialize.1 in
  CoinGeckoAlgorithm.observations slices init = earlier ++ [y; x] →
  ∃ self' calls,
    CoinGeckoAlgorithm.run slices init = Some (self', calls)
    ∧ last calls
      = Some (SetHoldings (CoinGeckoAlgorithm.crypto_symbol init) (trend x y)).
Proof.
  intros init Hobs.
  destruct (run_trends slices init) as [self' Hrun]; [done|].
  exists self'. eexists. split; [exact Hrun|].
  rewrite Hobs, trends_snoc, fmap_snoc, last_snoc. done.
Qed.

(** X3: what one call of [OnData] can do.  On an object whose window has
    capacity two it returns, having made no call or exactly one, which is
    [SetHoldings] on the crypto symbol with 1 or with -1; it never logs and
    never touches another symbol.  The two symbols of the object and the
    capacity of the window stay as they are, and a window that holds at
    most two observations still does. *)
Theorem OnData_effects slice self :
  RollingWindow.Size (CoinGeckoAlgorithm.window self) = 2%nat →
  ∃ self' calls,
    CoinGeckoAlgorithm.OnData slice self = Some (self', calls)
    ∧ (calls = []
       ∨ calls = [SetHoldings (CoinGeckoAlgorithm.crypto_symbol self) 1]
       ∨ calls = [SetHoldings (CoinGeckoAlgorithm.crypto_symbol self) (-1)])
    ∧ CoinGeckoAlgorithm.crypto_symbol self' = CoinGeckoAlgorithm.crypto_symbol self
    ∧ CoinGeckoAlgorithm.custom_data_symbol self'
      = CoinGeckoAlgorithm.custom_data_symbol self
    ∧ RollingWindow.Size (CoinGeckoAlgorithm.window self') = 2%nat
    ∧ ((RollingWindow.Count (CoinGeckoAlgorithm.window self) ≤ 2)%nat →
       (RollingWindow.Count (CoinGeckoAlgorithm.window self') ≤ 2)%nat).
Proof.
  intros Hsize.
  destruct (Get_CoinGecko slice !! CoinGeckoAlgorithm.custom_data_symbol self)
    as [x|] eqn:Hx.
  - rewrite (OnData_hit _ _ _ Hx Hsize). eexists _, _. split; [done|].
    split; [|repeat split; try done].
    + destruct (RollingWindow.items (CoinGeckoAlgorithm.window self)) as [|y its];
        [by left|right].
      unfold trend. case_decide; [by left|by right].
    + intros _. unfold RollingWindow.Count. simpl.
      rewrite Hsize, length_take. lia.
  - rewrite (OnData_miss _ _ Hx). exists self, []. repeat split; try done. by left.
Qed.

(** X4: [OnData] reads nothing of the slice but the CoinGecko point for
    the custom data symbol: two slices that agree on it, or both lack it,
    give the same result, whatever else they hold. *)
Theorem OnData_reads_own_symbol_only slice slice' self :
  Get_CoinGecko slice !! CoinGeckoAlgorithm.custom_data_symbol self
  = Get_CoinGecko slice' !! CoinGeckoAlgorithm.custom_data_symbol self →
  CoinGeckoAlgorithm.OnData slice self = CoinGeckoAlgorithm.OnData slice' self.
Proof.
  intros Hsame. unfold CoinGeckoAlgorithm.OnData. cbv zeta.
  by rewrite !guard_is_membership, Hsame.
Qed.

End BacktestSpec.

(** ** More on [sorted] *)
Section SortedMore.
Context {A : Type} (key : A → Z) (reverse : bool).
Implicit Types (x y : A) (l : list A).

(** A sorted list is left as it is. *)
Lemma sorted_id l :
  StronglySorted (Python.in_order key reverse) l → Python.sorted key reverse l = l.
Proof. intros Hl. symmetry. by apply sorted_unique. Qed.

(** Without equal keys at most one element has a given key. *)
Lemma filter_key_NoDup (k : Z) l :
  NoDup (key <$> l) → (length (filter (λ y, key y = k) l) ≤ 1)%nat.
Proof.
  induction l as [|x l IH]; csimpl; [lia|].
  rewrite NoDup_cons. intros [Hx Hl]. rewrite filter_cons.
  case_decide as Hk; [|by apply IH]. simpl.
  destruct (filter (λ y, key y = k) l) as [|y ys] eqn:Hfilter; simpl; [lia|].
  assert (y ∈ filter (λ y, key y = k) l) as Hy
    by (rewrite Hfilter; apply list_elem_of_here).
  apply list_elem_of_filter in Hy as [Hyk Hy].
  destruct Hx. rewrite Hk, <- Hyk. by apply list_elem_of_fmap_2.
Qed.

(** Without equal keys the sorted list does not depend on the order of the
    input. *)
Lemma sorted_Permutation_NoDup l l' :
  l ≡ₚ l' → NoDup (key <$> l) →
  Python.sorted key reverse l = Python.sorted key reverse l'.
Proof.
  intros Hperm Hnodup.
  apply (stable_sort_unique key reverse); [apply sorted_StronglySorted..|].
  intros k. rewrite !sorted_filter_key.
  pose proof (filter_key_NoDup k l Hnodup) as Hlen.
  assert (filter (λ y, key y = k) l ≡ₚ filter (λ y, key y = k) l') as Hfilter
    by (by rewrite Hperm).
  destruct (filter (λ y, key y = k) l) as [|x [|? ?]]; simpl in Hlen; [| |lia].
  - by apply Permutation_nil_l.
  - by apply Permutation_singleton_l.
Qed.

End SortedMore.

(** ** More on universe selection *)
Section SelectionFacts.
Context `{Host}.
Implicit Types (data : list CoinGecko) (x y : CoinGecko).

Lemma sorted_in_order_cap data :
  StronglySorted (Python.in_order MarketCap true)
    (CoinGeckoUniverseSelectionModelAlgorithm.selected data).
Proof.
  pose proof (sorted_StronglySorted MarketCap true data) as Hsorted.
  rewrite sorted_take_drop in Hsorted. by eapply StronglySorted_app_1_l.
Qed.

Lemma filter_all {T} (P : T → Prop) `{∀ z, Decision (P z)} (l : list T) :
  Forall P l → filter P l = l.
Proof.
  induction 1 as [|z l Hz _ IH]; [done|].
  by rewrite filter_cons, decide_True, IH.
Qed.

End SelectionFacts.

Section SelectionSpec.
Context `{Host}.
Implicit Types (data : list CoinGecko) (x y : CoinGecko).

(** X5: when no two entries have the same market cap, the selection does
    not depend on the order of the input list: reordering the candidates
    gives the same symbols in the same order. *)
Theorem UniverseSelection_order_independent data data' :
  data ≡ₚ data' →
  NoDup (MarketCap <$> data) →
  (CoinGeckoUniverseSelectionModelAlgorithm.UniverseSelection data).1
  = (CoinGeckoUniverseSelectionModelAlgorithm.UniverseSelection data').1.
Proof.
  intros Hperm Hnodup. simpl.
  unfold CoinGeckoUniverseSelectionModelAlgorithm.selected.
  by rewrite (sorted_Permutation_NoDup MarketCap true data data').
Qed.

(** X6: selecting again among the selected entries changes nothing: the
    selected entries are already ranked, so [UniverseSelection] on them
    returns the symbols it returned on the whole list. *)
Theorem UniverseSelection_idempotent data :
  CoinGeckoUniverseSelectionModelAlgorithm.selected
    (CoinGeckoUniverseSelectionModelAlgorithm.selected data)
  = CoinGeckoUniverseSelectionModelAlgorithm.selected data
  ∧ (CoinGeckoUniverseSelectionModelAlgorithm.UniverseSelection
       (CoinGeckoUniverseSelectionModelAlgorithm.selected data)).1
    = (CoinGeckoUniverseSelectionModelAlgorithm.UniverseSelection data).1.
Proof.
  assert (CoinGeckoUniverseSelectionModelAlgorithm.selected
            (CoinGeckoUniverseSelectionModelAlgorithm.selected data)
          = CoinGeckoUniverseSelectionModelAlgorithm.selected data) as Hfix.
  { unfold CoinGeckoUniverseSelectionModelAlgorithm.selected at 1.
    rewrite sorted_id by apply sorted_in_order_cap.
    unfold CoinGeckoUniverseSelectionModelAlgorithm.selected.
    rewrite take_take. f_equal. }
  split; [done|]. simpl. by rewrite Hfix.
Qed.

(** X7: an entry with at most three entries of the list, itself included,
    at or above its market cap is always selected, wherever it stands in
    the list, and its symbol is returned. *)
Theorem UniverseSelection_selects_top data x :
  x ∈ data →
  (length (at_least x data) ≤ 3)%nat →
  x ∈ CoinGeckoUniverseSelectionModelAlgorithm.selected data
  ∧ CreateSymbol x Market_GDAX "USD"
    ∈ (CoinGeckoUniverseSelectionModelAlgorithm.UniverseSelection data).1.
Proof.
  intros Hx Hcount.
  assert (x ∈ CoinGeckoUniverseSelectionModelAlgorithm.selected data) as Hsel;
    [|split; [done|];
      exact (list_elem_of_fmap_2 (λ z, CreateSymbol z Market_GDAX "USD") _ x Hsel)].
  destruct (decide (x ∈ CoinGeckoUniverseSelectionModelAlgorithm.selected data))
    as [|Hnot]; [done|exfalso].
  set (rest := drop 3 (Python.sorted MarketCap true data)).
  pose proof (sorted_cap_ge data) as Hsorted.
  rewrite sorted_take_drop in Hsorted. fold rest in Hsorted.
  assert (data ≡ₚ CoinGeckoUniverseSelectionModelAlgorithm.selected data ++ rest)
    as Hperm by (unfold rest; by rewrite <- sorted_take_drop, sorted_Permutation).
  assert (x ∈ rest) as Hrest.
  { rewrite Hperm in Hx. apply elem_of_app in Hx as [|]; done. }
  assert (length (CoinGeckoUniverseSelectionModelAlgorithm.selected data) = 3%nat)
    as Hthree.
  { unfold CoinGeckoUniverseSelectionModelAlgorithm.selected. rewrite length_take.
    destruct (decide (3 ≤ length (Python.sorted MarketCap true data))%nat); [lia|].
    unfold rest in Hrest. rewrite drop_ge in Hrest by lia.
    by apply not_elem_of_nil in Hrest. }
  unfold at_least in Hcount. rewrite Hperm, filter_app, length_app in Hcount.
  rewrite filter_all, Hthree in Hcount.
  - assert (x ∈ filter (λ y, MarketCap x ≤ MarketCap y) rest) as Hin
      by (by apply list_elem_of_filter).
    destruct (filter (λ y, MarketCap x ≤ MarketCap y) rest);
      [by apply not_elem_of_nil in Hin|simpl in Hcount; lia].
  - apply Forall_forall. intros y Hy.
    exact (StronglySorted_app_1_elem_of _ _ _ _ _ Hsorted Hy Hrest).
Qed.

(** X8: with at most three candidates nothing is dropped and nothing
    raises: the result is the symbols of all entries, re-ranked; the empty
    list gives the empty list. *)
Theorem UniverseSelection_short_list data :
  (length data ≤ 3)%nat →
  CoinGeckoUniverseSelectionModelAlgorithm.selected data
  = Python.sorted MarketCap true data
  ∧ (CoinGeckoUniverseSelectionModelAlgorithm.UniverseSelection data).1
    ≡ₚ (λ x, CreateSymbol x Market_GDAX "USD") <$> data.
Proof.
  intros Hlen.
  assert (CoinGeckoUniverseSelectionModelAlgorithm.selected data
          = Python.sorted MarketCap true data) as Hall.
  { unfold CoinGeckoUniverseSelectionModelAlgorithm.selected.
    apply take_ge. by rewrite length_sorted. }
  split; [done|]. simpl. by rewrite Hall, sorted_Permutation.
Qed.

(** X9: an entry with three or more entries of the list strictly above its
    market cap is never selected. *)
Theorem UniverseSelection_rejects_below_top data x :
  (3 ≤ length (above x data))%nat →
  x ∉ CoinGeckoUniverseSelectionModelAlgorithm.selected data.
Proof.
  intros Hcount Hsel.
  set (rest := drop 3 (Python.sorted MarketCap true data)).
  pose proof (sorted_cap_ge data) as Hsorted.
  rewrite sorted_take_drop in Hsorted. fold rest in Hsorted.
  assert (data ≡ₚ CoinGeckoUniverseSelectionModelAlgorithm.selected data ++ rest)
    as Hperm by (unfold rest; by rewrite <- sorted_take_drop, sorted_Permutation).
  unfold above in Hcount. rewrite Hperm, filter_app, length_app in Hcount.
  assert (filter (λ y, MarketCap x < MarketCap y) rest = []) as Hrest.
  { destruct (filter (λ y, MarketCap x < MarketCap y) rest) as [|y ys] eqn:Hfilter;
      [done|].
    assert (y ∈ filter (λ y, MarketCap x < MarketCap y) rest) as Hy
      by (rewrite Hfilter; apply list_elem_of_here).
    apply list_elem_of_filter in Hy as [Hlt Hy].
    pose proof (StronglySorted_app_1_elem_of _ _ _ _ _ Hsorted Hsel Hy) as Hge.
    unfold cap_ge in Hge. lia. }
  rewrite Hrest in Hcount. simpl in Hcount.
  pose proof (length_filter_lt (λ y, MarketCap x < MarketCap y) _ x Hsel) as Hlt.
  assert (length (CoinGeckoUniverseSelectionModelAlgorithm.selected data) ≤ 3)%nat
    by (unfold CoinGeckoUniverseSelectionModelAlgorithm.selected;
        rewrite length_take; lia).
  lia.
Qed.

End SelectionSpec.

(** * The further properties at the sample inputs *)
Section MoreInstances.
#[local] Existing Instance ticker_host.

(** A backtest whose observations end with 120 and then 110 ends short. *)
Lemma run_last_call_sample :
  ∃ self' calls,
    CoinGeckoAlgorithm.run
      [Sample.slice 100; Sample.other_slice; Sample.slice 120; Sample.crowded_slice 110]
      CoinGeckoAlgorithm.Initialize.1
    = Some (self', calls)
    ∧ last calls = Some (SetHoldings "BTCUSD" (-1)).
Proof.
  apply (run_last_call
           [Sample.slice 100; Sample.other_slice; Sample.slice 120;
            Sample.crowded_slice 110]
           [Sample.point "BTC" 100] (Sample.point "BTC" 110) (Sample.point "BTC" 120)).
  vm_compute. reflexivity.
Defined.

(** One call on a window that holds one observation. *)
Lemma OnData_effects_sample :
  ∃ self' calls,
    CoinGeckoAlgorithm.OnData (Sample.slice 120) (Sample.algorithm [Sample.point "BTC" 100])
    = Some (self', calls)
    ∧ (calls = [] ∨ calls = [SetHoldings "BTCUSD" 1] ∨ calls = [SetHoldings "BTCUSD" (-1)])
    ∧ CoinGeckoAlgorithm.crypto_symbol self' = "BTCUSD"
    ∧ CoinGeckoAlgorithm.custom_data_symbol self' = "BTC.CoinGecko"
    ∧ RollingWindow.Size (CoinGeckoAlgorithm.window self') = 2%nat
    ∧ ((1 ≤ 2)%nat → (RollingWindow.Count (CoinGeckoAlgorithm.window self') ≤ 2)%nat).
Proof.
  apply (OnData_effects (Sample.slice 120) (Sample.algorithm [Sample.point "BTC" 100])).
  reflexivity.
Defined.

(** The points for other symbols in a slice make no difference. *)
Lemma OnData_reads_own_symbol_only_sample :
  CoinGeckoAlgorithm.OnData (Sample.slice 120) (Sample.algorithm [Sample.point "BTC" 100])
  = CoinGeckoAlgorithm.OnData (Sample.crowded_slice 120)
      (Sample.algorithm [Sample.point "BTC" 100])
  ∧ CoinGeckoAlgorithm.OnData Sample.empty_slice (Sample.algorithm [])
    = CoinGeckoAlgorithm.OnData Sample.other_slice (Sample.algorithm []).
Proof.
  split.
  - apply (OnData_reads_own_symbol_only (Sample.slice 120) (Sample.crowded_slice 120)).
    vm_compute. reflexivity.
  - apply (OnData_reads_own_symbol_only Sample.empty_slice Sample.other_slice).
    vm_compute. reflexivity.
Defined.

(** Two orders of the same candidates without ties. *)
Lemma UniverseSelection_order_independent_sample :
  (CoinGeckoUniverseSelectionModelAlgorithm.UniverseSelection Sample.ranked).1
  = (CoinGeckoUniverseSelectionModelAlgorithm.UniverseSelection Sample.ranked').1.
Proof.
  apply (UniverseSelection_order_independent Sample.ranked Sample.ranked').
  - unfold Sample.ranked, Sample.ranked'.
    apply (Permutation_trans (l' := Sample.point "XRP" 30
             :: [Sample.point "ADA" 20; Sample.point "BTC" 90; Sample.point "ETH" 40])).
    + symmetry. apply (Permutation_middle [_; _; _] []).
    + apply Permutation_skip.
      apply (Permutation_trans (l' := Sample.point "ETH" 40
               :: [Sample.point "ADA" 20; Sample.point "BTC" 90])).
      * symmetry. apply (Permutation_middle [_; _] []).
      * apply Permutation_skip, Permutation_swap.
  - apply (bool_decide_unpack _). vm_compute. exact I.
Defined.

(** In the sample universe BTC has one other entry at its market cap and
    none above: it is selected. *)
Lemma UniverseSelection_selects_top_sample :
  Sample.point "BTC" 90 ∈ CoinGeckoUniverseSelectionModelAlgorithm.selected Sample.universe
  ∧ "BTCUSD"
    ∈ (CoinGeckoUniverseSelectionModelAlgorithm.UniverseSelection Sample.universe).1.
Proof.
  refine (UniverseSelection_selects_top Sample.universe (Sample.point "BTC" 90) _ _).
  - unfold Sample.universe. apply list_elem_of_further, list_elem_of_here.
  - vm_compute. lia.
Defined.

(** Two candidates: both are returned. *)
Lemma UniverseSelection_short_list_sample :
  CoinGeckoUniverseSelectionModelAlgorithm.selected
    [Sample.point "ADA" 20; Sample.point "BTC" 90]
  = [Sample.point "BTC" 90; Sample.point "ADA" 20]
  ∧ (CoinGeckoUniverseSelectionModelAlgorithm.UniverseSelection
       [Sample.point "ADA" 20; Sample.point "BTC" 90]).1
    ≡ₚ ["ADAUSD"; "BTCUSD"].
Proof.
  refine (UniverseSelection_short_list
            [Sample.point "ADA" 20; Sample.point "BTC" 90] _).
  simpl. lia.
Defined.

(** In the sample universe ADA has four entries above it. *)
Lemma UniverseSelection_rejects_below_top_sample :
  Sample.point "ADA" 20 ∉ CoinGeckoUniverseSelectionModelAlgorithm.selected Sample.universe.
Proof.
  apply (UniverseSelection_rejects_below_top Sample.universe (Sample.point "ADA" 20)).
  vm_compute. lia.
Defined.

(** With ties the order of the input does matter: ETH and SOL tie at the
    cut of the sample universe, and the earlier one is returned. *)
Example UniverseSelection_order_matters_with_ties :
  (CoinGeckoUniverseSelectionModelAlgorithm.UniverseSelection
     [Sample.point "BTC" 90; Sample.point "XRP" 90; Sample.point "ETH" 40;
      Sample.point "SOL" 40]).1
  = ["BTCUSD"; "XRPUSD"; "ETHUSD"]
  ∧ (CoinGeckoUniverseSelectionModelAlgorithm.UniverseSelection
       [Sample.point "BTC" 90; Sample.point "XRP" 90; Sample.point "SOL" 40;
        Sample.point "ETH" 40]).1
    = ["BTCUSD"; "XRPUSD"; "SOLUSD"].
Proof. split; reflexivity. Qed.

End MoreInstances.
